(** * gdata.contacts.service: the Google Contacts client facade

    A shallow embedding of [src/gdata/contacts/service.py].  Python strings
    are [string]; an optional argument ([None] or a value) is an [option];
    the truth value Python gives to such an argument is written out
    ([truthy], [py_or]).  The calls that reach the network thread a wire
    state that records every request handed to the transport. *)

From Stdlib Require Import String Ascii List ZArith Bool Lia.
Import ListNotations.

Open Scope string_scope.

(** ** Python string primitives used by the module *)

Module PyStr.

(** [s.startswith(p)] *)
Definition startswith (s p : string) : bool := String.prefix p s.

(** [s[n:]] *)
Fixpoint slice_from (n : nat) (s : string) : string :=
  match n, s with
  | O, _ => s
  | S _, EmptyString => EmptyString
  | S n', String _ s' => slice_from n' s'
  end.

(** The truth value of a string: only the empty string is false. *)
Definition nonempty (s : string) : bool :=
  match s with
  | EmptyString => false
  | String _ _ => true
  end.

(** The truth value of an argument that is [None] or a string. *)
Definition truthy (o : option string) : bool :=
  match o with
  | None => false
  | Some s => nonempty s
  end.

(** [o or d], for [o] an optional string and [d] a string. *)
Definition py_or (o : option string) (d : string) : string :=
  match o with
  | Some s => if nonempty s then s else d
  | None => d
  end.

End PyStr.

Import PyStr.

(** ** The client object *)

(** The attributes [__init__] stores that the methods below read:
    [self.server] (default ['www.google.com']) and [self.contact_list]
    (default ['default']). *)
Record ContactsService := mkService {
  server : string;
  contact_list : string
}.

Definition default_service : ContactsService :=
  {| server := "www.google.com"; contact_list := "default" |}.

Definition DEFAULT_BATCH_URL : string :=
  "http://www.google.com/m8/feeds/contacts/default/full" ++ "/batch".

Definition DEFAULT_PROFILES_BATCH_URL : string :=
  "http://www.google.com" ++ "/m8/feeds/profiles/default/full/batch".

(** ** Feed URIs *)

(** [GetFeedUri(self, kind, contact_list, projection, scheme)]; the
    defaults of the source are ['contacts'], [None], ['full'], [None]. *)
Definition GetFeedUri (self : ContactsService) (kind : string)
    (contact_list_arg : option string) (projection : string)
    (scheme : option string) : string :=
  let contact_list := py_or contact_list_arg (contact_list self) in
  let contact_list :=
    if String.eqb kind "profiles" then "domain/" ++ contact_list
    else contact_list in
  let prefix :=
    match scheme with
    | Some s =>
        if nonempty s
        then (let p := s ++ "://" ++ server self in
              if nonempty p then p else "")
        else ""
    | None => ""
    end in
  prefix ++ "/m8/feeds/" ++ kind ++ "/" ++ contact_list ++ "/" ++ projection.

(** [_CleanUri(self, uri)] *)
Definition _CleanUri (self : ContactsService) (uri : string) : string :=
  let url_prefix := "http://" ++ server self in
  if startswith uri url_prefix
  then slice_from (String.length url_prefix) uri
  else uri.

(** ** Atom data the facade handles *)

(** An [atom.Link]: its relation and its target. *)
Record Link := mkLink {
  rel : string;
  href : string
}.

(** Modelled from the spec: [gdata.contacts.ContactEntry] is not part of
    the module; the spec's data model gives a contact entry an optional
    photo link, a photo-edit link that may be lacking, and further
    structured fields. *)
Record ContactEntry := mkContactEntry {
  photo_link : option Link;
  photo_edit_link : option Link;
  fields : string
}.

(** Modelled from the spec: [ContactEntry.GetPhotoLink()], the entry's
    photo link, [None] when the entry has none. *)
Definition GetPhotoLink (e : ContactEntry) : option Link := photo_link e.

(** Modelled from the spec: [ContactEntry.GetPhotoEditLink()], the entry's
    photo-edit link, [None] when the entry lacks it. *)
Definition GetPhotoEditLink (e : ContactEntry) : option Link :=
  photo_edit_link e.

(** A [gdata.MediaSource] over streams of type [Stream]. *)
Record MediaSource (Stream : Type) := mkMediaSource {
  file_handle : option Stream;
  content_type : option string;
  content_length : option Z
}.
Arguments mkMediaSource {Stream} _ _ _.
Arguments file_handle {Stream} _.
Arguments content_type {Stream} _.
Arguments content_length {Stream} _.

(** What a request carries: an atom object (an entry, a feed, a string) or
    a media source. *)
Inductive Payload (Atom Stream : Type) : Type :=
| AtomBody (a : Atom)
| MediaBody (m : MediaSource Stream).
Arguments AtomBody {Atom Stream} _.
Arguments MediaBody {Atom Stream} _.

Inductive Verb : Type := GET | POST | PUT | DELETE.

(** One call on the transport, with the arguments the facade passes. *)
Record Request (Atom Stream : Type) := mkRequest {
  verb : Verb;
  uri : string;
  payload : option (Payload Atom Stream);
  url_params : option (list (string * string));
  escape_params : bool
}.
Arguments mkRequest {Atom Stream} _ _ _ _ _.
Arguments verb {Atom Stream} _.
Arguments uri {Atom Stream} _.
Arguments payload {Atom Stream} _.
Arguments url_params {Atom Stream} _.
Arguments escape_params {Atom Stream} _.

(** What the server answers. *)
Record Response := mkResponse {
  status : Z;
  reason : string;
  body : string
}.

(** The exceptions that can leave the facade.  The module declares the
    classes [Error] and [RequestError] and raises neither itself: the
    request error comes from the transport and passes through. *)
Inductive Exn : Type :=
| RequestError (status : Z) (reason : string) (body : string)
| AttributeError
| IOError (path : string).

Inductive Outcome (A : Type) : Type :=
| Returns (a : A)
| Raises (e : Exn).
Arguments Returns {A} _.
Arguments Raises {A} _.

(** The acknowledgment of a DELETE. *)
Inductive Ack : Type := Acknowledged.

(** How a photo operation is given its target: [isinstance(x, ContactEntry)]
    or anything else, taken as the URL. *)
Inductive PhotoTarget : Type :=
| EntryTarget (e : ContactEntry)
| UrlTarget (u : string).

(** How [ChangePhoto] is given its media: a [MediaSource], an object with a
    [read] attribute, or anything else, taken as a file name. *)
Inductive Media (Stream : Type) : Type :=
| IsMediaSource (m : MediaSource Stream)
| FileLike (f : Stream)
| FileName (path : string).
Arguments IsMediaSource {Stream} _.
Arguments FileLike {Stream} _.
Arguments FileName {Stream} _.

(** ** The collaborators of the module

    Everything the module uses and does not define: the connection the
    base class holds, the file system [MediaSource] reads, the
    deserialisers of [gdata.contacts], and Python's builtin [str] as it acts
    on the body the transport hands over (the identity when the body is a
    text string, its repr [b'...'] when it is a bytes object). *)
Class Collaborators : Type := {
  Atom : Type;
  Stream : Type;
  Conn : Type;
  exchange : Conn -> Request Atom Stream -> Response * Conn;
  open_file : string -> option (Stream * Z);
  ContactsFeed : Type;
  GroupsFeed : Type;
  GroupEntry : Type;
  ProfilesFeed : Type;
  ProfileEntry : Type;
  Generic : Type;
  ContactsFeedFromString : string -> ContactsFeed;
  ContactEntryFromString : string -> ContactEntry;
  GroupsFeedFromString : string -> GroupsFeed;
  GroupEntryFromString : string -> GroupEntry;
  ProfilesFeedFromString : string -> ProfilesFeed;
  ProfileEntryFromString : string -> ProfileEntry;
  GDataFromString : string -> Generic;
  str : string -> string
}.

Section Service.

Context {C : Collaborators}.

Definition Req : Type := Request Atom Stream.

(** ** Calls as computations over the wire *)

Record Wire := mkWire {
  conn : Conn;
  sent : list Req
}.

Definition Net (A : Type) : Type := Wire -> Outcome A * Wire.

Definition ret {A} (a : A) : Net A := fun w => (Returns a, w).

Definition raise {A} (e : Exn) : Net A := fun w => (Raises e, w).

Definition bind {A B} (m : Net A) (k : A -> Net B) : Net B :=
  fun w =>
    match m w with
    | (Returns a, w') => k a w'
    | (Raises e, w') => (Raises e, w')
    end.

Notation "x <- m ;; k" := (bind m (fun x => k))
  (at level 61, m at next level, right associativity).

(** ** The transport *)

Definition ok_status (st : Z) : bool := ((200 <=? st) && (st <? 300))%Z.

(** Modelled from the spec: what the transport makes of a response.  A
    status outside 2xx raises the request error with the status, reason and
    body of the response; otherwise the converter is applied to the body. *)
Definition interpret {T} (resp : Response) (converter : string -> T)
    : Outcome T :=
  if ok_status (status resp)
  then Returns (converter (body resp))
  else Raises (RequestError (status resp) (reason resp) (body resp)).

(** Modelled from the spec: the request/response core of
    [gdata.service.GDataService], which is not part of the module.  One
    call is one round trip on the connection. *)
Definition perform {T} (rq : Req) (converter : string -> T) : Net T :=
  fun w =>
    let (resp, c) := exchange (conn w) rq in
    (interpret resp converter, {| conn := c; sent := sent w ++ [rq] |}).

(** Modelled from the spec: [GDataService.Get(uri, converter)]. *)
Definition Get {T} (uri : string) (converter : string -> T) : Net T :=
  perform (mkRequest GET uri None None true) converter.

(** Modelled from the spec:
    [GDataService.Post(data, uri, url_params, escape_params, converter)]. *)
Definition Post {T} (data : Payload Atom Stream) (uri : string)
    (url_params : option (list (string * string))) (escape_params : bool)
    (converter : string -> T) : Net T :=
  perform (mkRequest POST uri (Some data) url_params escape_params) converter.

(** Modelled from the spec:
    [GDataService.Put(data, uri, url_params, escape_params, converter)]. *)
Definition Put {T} (data : Payload Atom Stream) (uri : string)
    (url_params : option (list (string * string))) (escape_params : bool)
    (converter : string -> T) : Net T :=
  perform (mkRequest PUT uri (Some data) url_params escape_params) converter.

(** Modelled from the spec:
    [GDataService.Delete(uri, url_params, escape_params)]. *)
Definition Delete (uri : string)
    (url_params : option (list (string * string))) (escape_params : bool)
    : Net Ack :=
  perform (mkRequest DELETE uri None url_params escape_params)
          (fun _ => Acknowledged).

(** Modelled from the spec: the constructor of [gdata.MediaSource], which
    wraps a stream or a file path into a media source carrying content
    type and content length, the length taken from the file's size when a
    path is given. *)
Definition MediaSource_init (file_handle : option Stream)
    (content_type : option string) (content_length : option Z)
    (file_path : option string) : Net (MediaSource Stream) :=
  match file_handle, file_path with
  | Some h, _ => ret (mkMediaSource (Some h) content_type content_length)
  | None, Some p =>
      match open_file p with
      | Some (h, size) => ret (mkMediaSource (Some h) content_type (Some size))
      | None => raise (IOError p)
      end
  | None, None => ret (mkMediaSource None content_type content_length)
  end.

(** ** The methods of [ContactsService] *)

Definition Params : Type := option (list (string * string)).

(** [GetContactsFeed(self, uri=None)] *)
Definition GetContactsFeed (self : ContactsService) (uri : option string)
    : Net ContactsFeed :=
  let uri := py_or uri (GetFeedUri self "contacts" None "full" None) in
  Get uri ContactsFeedFromString.

(** [GetContact(self, uri)] *)
Definition GetContact (self : ContactsService) (uri : string)
    : Net ContactEntry :=
  Get uri ContactEntryFromString.

(** [CreateContact(self, new_contact, insert_uri=None, url_params=None,
    escape_params=True)] *)
Definition CreateContact (self : ContactsService) (new_contact : Atom)
    (insert_uri : option string) (url_params : Params) (escape_params : bool)
    : Net ContactEntry :=
  let insert_uri :=
    py_or insert_uri (GetFeedUri self "contacts" None "full" None) in
  Post (AtomBody new_contact) insert_uri url_params escape_params
       ContactEntryFromString.

(** [UpdateContact(self, edit_uri, updated_contact, url_params=None,
    escape_params=True)] *)
Definition UpdateContact (self : ContactsService) (edit_uri : string)
    (updated_contact : Atom) (url_params : Params) (escape_params : bool)
    : Net ContactEntry :=
  Put (AtomBody updated_contact) (_CleanUri self edit_uri) url_params
      escape_params ContactEntryFromString.

(** [DeleteContact(self, edit_uri, extra_headers=None, url_params=None,
    escape_params=True)]; [extra_headers] is accepted and not passed on. *)
Definition DeleteContact (self : ContactsService) (edit_uri : string)
    (extra_headers : Params) (url_params : Params) (escape_params : bool)
    : Net Ack :=
  Delete (_CleanUri self edit_uri) url_params escape_params.

(** [GetGroupsFeed(self, uri=None)] *)
Definition GetGroupsFeed (self : ContactsService) (uri : option string)
    : Net GroupsFeed :=
  let uri := py_or uri (GetFeedUri self "groups" None "full" None) in
  Get uri GroupsFeedFromString.

(** [CreateGroup(self, new_group, insert_uri=None, url_params=None,
    escape_params=True)] *)
Definition CreateGroup (self : ContactsService) (new_group : Atom)
    (insert_uri : option string) (url_params : Params) (escape_params : bool)
    : Net GroupEntry :=
  let insert_uri :=
    py_or insert_uri (GetFeedUri self "groups" None "full" None) in
  Post (AtomBody new_group) insert_uri url_params escape_params
       GroupEntryFromString.

(** [UpdateGroup(self, edit_uri, updated_group, url_params=None,
    escape_params=True)] *)
Definition UpdateGroup (self : ContactsService) (edit_uri : string)
    (updated_group : Atom) (url_params : Params) (escape_params : bool)
    : Net GroupEntry :=
  Put (AtomBody updated_group) (_CleanUri self edit_uri) url_params
      escape_params GroupEntryFromString.

(** [DeleteGroup(self, edit_uri, extra_headers=None, url_params=None,
    escape_params=True)] *)
Definition DeleteGroup (self : ContactsService) (edit_uri : string)
    (extra_headers : Params) (url_params : Params) (escape_params : bool)
    : Net Ack :=
  Delete (_CleanUri self edit_uri) url_params escape_params.

(** [ChangePhoto(self, media, contact_entry_or_url, content_type=None,
    content_length=None)].  [x.href] on the [None] that
    [GetPhotoEditLink] returns raises [AttributeError]; the call of
    [self.Put] passes neither parameters nor a converter. *)
Definition ChangePhoto (self : ContactsService) (media : Media Stream)
    (contact_entry_or_url : PhotoTarget) (content_type : option string)
    (content_length : option Z) : Net Generic :=
  url <- match contact_entry_or_url with
         | EntryTarget e =>
             match GetPhotoEditLink e with
             | Some l => ret (href l)
             | None => raise AttributeError
             end
         | UrlTarget u => ret u
         end ;;
  payload <- match media with
             | IsMediaSource m => ret m
             | FileLike f =>
                 MediaSource_init (Some f) content_type content_length None
             | FileName path =>
                 MediaSource_init None content_type content_length (Some path)
             end ;;
  Put (MediaBody payload) url None true GDataFromString.

(** [GetPhoto(self, contact_entry_or_url)]; the result is the body or
    [None]. *)
Definition GetPhoto (self : ContactsService)
    (contact_entry_or_url : PhotoTarget) : Net (option string) :=
  let url :=
    match contact_entry_or_url with
    | EntryTarget e =>
        match GetPhotoLink e with
        | Some photo_link => Some (href photo_link)
        | None => None
        end
    | UrlTarget u => Some u
    end in
  match url with
  | Some u =>
      if nonempty u
      then (b <- Get u str ;; ret (Some b))
      else ret None
  | None => ret None
  end.

(** [DeletePhoto(self, contact_entry_or_url)]; the method has no [return],
    so its value is always [None]. *)
Definition DeletePhoto (self : ContactsService)
    (contact_entry_or_url : PhotoTarget) : Net unit :=
  url <- match contact_entry_or_url with
         | EntryTarget e =>
             match GetPhotoEditLink e with
             | Some l => ret (href l)
             | None => raise AttributeError
             end
         | UrlTarget u => ret u
         end ;;
  if nonempty url
  then (_ <- Delete url None true ;; ret tt)
  else ret tt.

(** [GetProfilesFeed(self, uri=None)] *)
Definition GetProfilesFeed (self : ContactsService) (uri : option string)
    : Net ProfilesFeed :=
  let uri := py_or uri (GetFeedUri self "profiles" None "full" None) in
  Get uri ProfilesFeedFromString.

(** [GetProfile(self, uri)] *)
Definition GetProfile (self : ContactsService) (uri : string)
    : Net ProfileEntry :=
  Get uri ProfileEntryFromString.

(** [UpdateProfile(self, edit_uri, updated_profile, url_params=None,
    escape_params=True)] *)
Definition UpdateProfile (self : ContactsService) (edit_uri : string)
    (updated_profile : Atom) (url_params : Params) (escape_params : bool)
    : Net ProfileEntry :=
  Put (AtomBody updated_profile) (_CleanUri self edit_uri) url_params
      escape_params ProfileEntryFromString.

(** [ExecuteBatch(self, batch_feed, url, converter)]; the value the
    [converter] keyword has when the caller leaves it out is
    [ExecuteBatch_converter]. *)
Definition ExecuteBatch {T} (self : ContactsService) (batch_feed : Atom)
    (url : string) (converter : string -> T) : Net T :=
  Post (AtomBody batch_feed) url None true converter.

Definition ExecuteBatch_converter : string -> ContactsFeed :=
  ContactsFeedFromString.

(** [ExecuteBatchProfiles(self, batch_feed, url, converter)], with its own
    default for [converter]. *)
Definition ExecuteBatchProfiles {T} (self : ContactsService)
    (batch_feed : Atom) (url : string) (converter : string -> T) : Net T :=
  Post (AtomBody batch_feed) url None true converter.

Definition ExecuteBatchProfiles_converter : string -> ProfilesFeed :=
  ProfilesFeedFromString.

(** ** Vocabulary of the statements *)

(** The response the server gives to [rq] on wire [w]. *)
Definition answer (w : Wire) (rq : Req) : Response :=
  fst (exchange (conn w) rq).

(** The get, create, update and delete operations of the three kinds. *)
Inductive crud_operation (self : ContactsService)
    : forall T : Type, Net T -> Prop :=
| crud_GetContactsFeed uri :
    crud_operation self _ (GetContactsFeed self uri)
| crud_GetContact uri :
    crud_operation self _ (GetContact self uri)
| crud_CreateContact entry insert_uri params esc :
    crud_operation self _ (CreateContact self entry insert_uri params esc)
| crud_UpdateContact edit_uri entry params esc :
    crud_operation self _ (UpdateContact self edit_uri entry params esc)
| crud_DeleteContact edit_uri headers params esc :
    crud_operation self _ (DeleteContact self edit_uri headers params esc)
| crud_GetGroupsFeed uri :
    crud_operation self _ (GetGroupsFeed self uri)
| crud_CreateGroup entry insert_uri params esc :
    crud_operation self _ (CreateGroup self entry insert_uri params esc)
| crud_UpdateGroup edit_uri entry params esc :
    crud_operation self _ (UpdateGroup self edit_uri entry params esc)
| crud_DeleteGroup edit_uri headers params esc :
    crud_operation self _ (DeleteGroup self edit_uri headers params esc)
| crud_GetProfilesFeed uri :
    crud_operation self _ (GetProfilesFeed self uri)
| crud_GetProfile uri :
    crud_operation self _ (GetProfile self uri)
| crud_UpdateProfile edit_uri entry params esc :
    crud_operation self _ (UpdateProfile self edit_uri entry params esc).

(** The operations that take an edit URI, with the verb each one uses. *)
Inductive edit_operation (self : ContactsService) (edit_uri : string)
    : Verb -> forall T : Type, Net T -> Prop :=
| edit_UpdateContact entry params esc :
    edit_operation self edit_uri PUT _
      (UpdateContact self edit_uri entry params esc)
| edit_DeleteContact headers params esc :
    edit_operation self edit_uri DELETE _
      (DeleteContact self edit_uri headers params esc)
| edit_UpdateGroup entry params esc :
    edit_operation self edit_uri PUT _
      (UpdateGroup self edit_uri entry params esc)
| edit_DeleteGroup headers params esc :
    edit_operation self edit_uri DELETE _
      (DeleteGroup self edit_uri headers params esc)
| edit_UpdateProfile entry params esc :
    edit_operation self edit_uri PUT _
      (UpdateProfile self edit_uri entry params esc).

(** [photo_edit_target t url]: the photo operations that write resolve the
    target [t] to [url], given directly or as the href of the entry's
    photo-edit link. *)
Inductive photo_edit_target : PhotoTarget -> string -> Prop :=
| edit_target_url url : photo_edit_target (UrlTarget url) url
| edit_target_link pl l f :
    photo_edit_target (EntryTarget (mkContactEntry pl (Some l) f)) (href l).


(** [wraps media ct cl payload]: the media source [ChangePhoto] sends for
    [media]; a file name that cannot be opened has none. *)
Inductive wraps (ct : option string) (cl : option Z)
    : Media Stream -> MediaSource Stream -> Prop :=
| wraps_source m : wraps ct cl (IsMediaSource m) m
| wraps_stream f : wraps ct cl (FileLike f) (mkMediaSource (Some f) ct cl)
| wraps_file path h size :
    open_file path = Some (h, size) ->
    wraps ct cl (FileName path) (mkMediaSource (Some h) ct (Some size)).

End Service.

(** ** A concrete set of collaborators

    A server that answers every request with [reply]; entries and feeds are
    their XML text, streams are their bytes, the only file is [photo.jpg],
    and bodies are text strings, on which [str] is the identity. *)
Definition demo (reply : Request string string -> Response) : Collaborators :=
  {| Atom := string;
     Stream := string;
     Conn := nat;
     exchange := fun n rq => (reply rq, S n);
     open_file := fun p =>
       if String.eqb p "photo.jpg" then Some ("JFIF", 4%Z) else None;
     ContactsFeed := string;
     GroupsFeed := string;
     GroupEntry := string;
     ProfilesFeed := string;
     ProfileEntry := string;
     Generic := string;
     ContactsFeedFromString := fun s => s;
     ContactEntryFromString := fun s => mkContactEntry None None s;
     GroupsFeedFromString := fun s => s;
     GroupEntryFromString := fun s => s;
     ProfilesFeedFromString := fun s => s;
     ProfileEntryFromString := fun s => s;
     GDataFromString := fun s => s;
     str := fun s => s |}.

Definition created : Request string string -> Response :=
  fun _ => mkResponse 201 "Created" "<entry/>".

Definition not_found : Request string string -> Response :=
  fun _ => mkResponse 404 "Not Found" "no such entry".

Definition fresh (reply : Request string string -> Response)
    : @Wire (demo reply) :=
  @mkWire (demo reply) O [].

(** ** The host a URI names

    Used only to state what [_CleanUri] does with the URI of another host:
    the text between ["://"] and the next ["/"]. *)

Fixpoint before (c : ascii) (s : string) : string :=
  match s with
  | EmptyString => EmptyString
  | String a s' => if Ascii.eqb a c then EmptyString else String a (before c s')
  end.

Fixpoint after_scheme (s : string) : option string :=
  match s with
  | EmptyString => None
  | String _ s' =>
      if String.prefix "://" s then Some (slice_from 3 s) else after_scheme s'
  end.

Definition uri_host (u : string) : option string :=
  option_map (before "/") (after_scheme u).

(** The path of a feed, as the interface documents it. *)
Definition feed_path (kind listId projection : string) : string :=
  "/m8/feeds/" ++ kind ++ "/"
  ++ (if String.eqb kind "profiles" then "domain/" ++ listId else listId)
  ++ "/" ++ projection.

(** [sub in s] *)
Fixpoint contains (sub s : string) : bool :=
  match s with
  | EmptyString => String.prefix sub EmptyString
  | String _ s' => String.prefix sub s || contains sub s'
  end.

(** ** The repr of a bytes object

    What [str] gives for a bytes body: [b], a quote, the bytes with the
    quote, the backslash and the unprintable ones escaped, the quote. *)

Definition hex_digit (n : nat) : ascii :=
  match String.get n "0123456789abcdef" with
  | Some c => c
  | None => "0"%char
  end.

(** The quote of the repr: double only when the bytes hold a single quote
    and no double one. *)
Definition bytes_quote (s : string) : ascii :=
  if contains "'" s && negb (contains (String "034" EmptyString) s)
  then "034"%char
  else "'"%char.

Definition bytes_repr_char (quote c : ascii) : string :=
  if Ascii.eqb c quote || Ascii.eqb c "\"
  then String "\" (String c EmptyString)
  else if Ascii.eqb c "009" then "\t"
  else if Ascii.eqb c "010" then "\n"
  else if Ascii.eqb c "013" then "\r"
  else if ((nat_of_ascii c <? 32) || (127 <=? nat_of_ascii c))%nat
  then String "\" (String "x"
         (String (hex_digit (nat_of_ascii c / 16))
            (String (hex_digit (nat_of_ascii c mod 16)) EmptyString)))
  else String c EmptyString.

Fixpoint bytes_repr_body (quote : ascii) (s : string) : string :=
  match s with
  | EmptyString => EmptyString
  | String c s' => bytes_repr_char quote c ++ bytes_repr_body quote s'
  end.

Definition bytes_repr (s : string) : string :=
  let quote := bytes_quote s in
  String "b" (String quote (bytes_repr_body quote s ++ String quote EmptyString)).

(** The collaborators of [demo] with bodies that are bytes objects. *)
Definition demo_bytes (reply : Request string string -> Response)
    : Collaborators :=
  {| Atom := string;
     Stream := string;
     Conn := nat;
     exchange := fun n rq => (reply rq, S n);
     open_file := fun p =>
       if String.eqb p "photo.jpg" then Some ("JFIF", 4%Z) else None;
     ContactsFeed := string;
     GroupsFeed := string;
     GroupEntry := string;
     ProfilesFeed := string;
     ProfileEntry := string;
     Generic := string;
     ContactsFeedFromString := fun s => s;
     ContactEntryFromString := fun s => mkContactEntry None None s;
     GroupsFeedFromString := fun s => s;
     GroupEntryFromString := fun s => s;
     ProfilesFeedFromString := fun s => s;
     ProfileEntryFromString := fun s => s;
     GDataFromString := fun s => s;
     str := bytes_repr |}.

Definition photo_found : Request string string -> Response :=
  fun _ => mkResponse 200 "OK" "JFIF".

(** ** Query builders *)

(** A Python dict with string keys and values, as the list of its items in
    insertion order. *)
Definition Dict : Type := list (string * string).

(** [d[k]], [None] standing for the [KeyError]. *)
Fixpoint dict_get (k : string) (d : Dict) : option string :=
  match d with
  | [] => None
  | (k', v) :: d' => if String.eqb k' k then Some v else dict_get k d'
  end.

(** [k in d] *)
Definition dict_mem (k : string) (d : Dict) : bool :=
  match dict_get k d with
  | Some _ => true
  | None => false
  end.

(** [d[k] = v]: an existing key keeps its place, a new key goes last. *)
Fixpoint dict_set (k v : string) (d : Dict) : Dict :=
  match d with
  | [] => [(k, v)]
  | (k', v') :: d' =>
      if String.eqb k' k then (k, v) :: d' else (k', v') :: dict_set k v d'
  end.

(** A query object: the dict it is (its URL parameters) and the attributes
    the constructors set on it. *)
Record Query := mkQuery {
  feed : option string;
  text_query : option string;
  categories : list string;
  items : Dict
}.

(** The object [__init__] receives: an empty dict with no attribute set. *)
Definition new_query : Query := mkQuery None None [] [].

(** [ContactsQuery._GetGroup(self)] *)
Definition _GetGroup (self : Query) : option string :=
  if dict_mem "group" (items self)
  then dict_get "group" (items self)
  else None.

(** [ContactsQuery._SetGroup(self, group_id)] *)
Definition _SetGroup (self : Query) (group_id : string) : Query :=
  mkQuery (feed self) (text_query self) (categories self)
          (dict_set "group" group_id (items self)).

(** The value [ContactsQuery.__init__] gives [self.feed]. *)
Definition ContactsQuery_feed (feed : option string) : string :=
  py_or feed "/m8/feeds/contacts/default/full".

(** The value [GroupsQuery.__init__] gives [self.feed]. *)
Definition GroupsQuery_feed (feed : option string) : string :=
  py_or feed "/m8/feeds/groups/default/full".

(** The value [ProfilesQuery.__init__] gives [self.feed]. *)
Definition ProfilesQuery_feed (feed : option string) : string :=
  py_or feed "/m8/feeds/profiles/default/full".

Section Queries.

(** The constructor of the base class [gdata.service.Query], which the
    module imports: it finishes the object it is given from the feed, the
    text query, the parameters and the categories. *)
Variable Query__init__ :
  Query -> string -> option string -> option Dict -> option (list string)
  -> Query.


(** [GroupsQuery.__init__(self, feed=None, text_query=None, params=None,
    categories=None)] *)
Definition GroupsQuery (feed : option string) (text_query : option string)
    (params : option Dict) (categories : option (list string)) : Query :=
  let self :=
    mkQuery (Some (GroupsQuery_feed feed)) None [] (items new_query) in
  Query__init__ self (GroupsQuery_feed feed) text_query params categories.

(** [ProfilesQuery.__init__(self, feed=None, text_query=None, params=None,
    categories=None)] *)
Definition ProfilesQuery (feed : option string) (text_query : option string)
    (params : option Dict) (categories : option (list string)) : Query :=
  let self :=
    mkQuery (Some (ProfilesQuery_feed feed)) None [] (items new_query) in
  Query__init__ self (ProfilesQuery_feed feed) text_query params categories.

End Queries.


Section MoreVocabulary.

Context {C : Collaborators}.

(** Every method of [ContactsService] that can reach the network. *)
Inductive operation (self : ContactsService)
    : forall T : Type, Net T -> Prop :=
| op_crud T m : crud_operation self T m -> operation self T m
| op_ChangePhoto media target ct cl :
    operation self _ (ChangePhoto self media target ct cl)
| op_GetPhoto target : operation self _ (GetPhoto self target)
| op_DeletePhoto target : operation self _ (DeletePhoto self target)
| op_ExecuteBatch T batch_feed url (converter : string -> T) :
    operation self _ (ExecuteBatch self batch_feed url converter)
| op_ExecuteBatchProfiles T batch_feed url (converter : string -> T) :
    operation self _ (ExecuteBatchProfiles self batch_feed url converter).

(** The methods that read, create or batch at a URI the caller supplies,
    with the verb each one uses. *)
Inductive addressed_operation (self : ContactsService) (uri : string)
    : Verb -> forall T : Type, Net T -> Prop :=
| at_GetContactsFeed :
    addressed_operation self uri GET _ (GetContactsFeed self (Some uri))
| at_GetContact :
    addressed_operation self uri GET _ (GetContact self uri)
| at_GetGroupsFeed :
    addressed_operation self uri GET _ (GetGroupsFeed self (Some uri))
| at_GetProfilesFeed :
    addressed_operation self uri GET _ (GetProfilesFeed self (Some uri))
| at_GetProfile :
    addressed_operation self uri GET _ (GetProfile self uri)
| at_CreateContact entry params esc :
    addressed_operation self uri POST _
      (CreateContact self entry (Some uri) params esc)
| at_CreateGroup entry params esc :
    addressed_operation self uri POST _
      (CreateGroup self entry (Some uri) params esc)
| at_ExecuteBatch T batch_feed (converter : string -> T) :
    addressed_operation self uri POST _
      (ExecuteBatch self batch_feed uri converter)
| at_ExecuteBatchProfiles T batch_feed (converter : string -> T) :
    addressed_operation self uri POST _
      (ExecuteBatchProfiles self batch_feed uri converter).

End MoreVocabulary.

(** * Properties *)

(** ** Strings *)

Lemma append_assoc (a b c : string) : (a ++ b) ++ c = a ++ (b ++ c).
Proof.
  induction a as [|x a IH]; simpl; [reflexivity|].
  now rewrite IH.
Qed.

Lemma nonempty_true (s : string) : s <> "" -> nonempty s = true.
Proof.
  destruct s; [intros H; now elim H | reflexivity].
Qed.

Lemma nonempty_false (s : string) : nonempty s = false -> s = "".
Proof.
  destruct s; [reflexivity | discriminate].
Qed.

Lemma py_or_given (s d : string) : s <> "" -> py_or (Some s) d = s.
Proof.
  intros H. unfold py_or. now rewrite (nonempty_true s H).
Qed.

Lemma startswith_app (p r : string) : startswith (p ++ r) p = true.
Proof.
  unfold startswith.
  induction p as [|x p IH]; simpl.
  - now destruct r.
  - destruct (ascii_dec x x) as [_|N]; [exact IH | now elim N].
Qed.

Lemma slice_from_app (p r : string) : slice_from (String.length p) (p ++ r) = r.
Proof.
  induction p as [|x p IH]; simpl; [reflexivity | exact IH].
Qed.

Lemma startswith_split (s p : string) :
  startswith s p = true -> s = p ++ slice_from (String.length p) s.
Proof.
  unfold startswith. revert s.
  induction p as [|x p IH]; intros s H; simpl in *.
  - reflexivity.
  - destruct s as [|y s]; simpl in H; [discriminate|].
    destruct (ascii_dec x y) as [E|_]; [|discriminate].
    subst y. simpl. f_equal. now apply IH.
Qed.

Lemma startswith_https (srv r : string) :
  startswith ("https://" ++ r) ("http://" ++ srv) = false.
Proof. reflexivity. Qed.

Lemma startswith_http_host (srv rest : string) :
  startswith ("http://" ++ rest) ("http://" ++ srv) = String.prefix srv rest.
Proof. reflexivity. Qed.

(** ** Feed URIs *)

Lemma GetFeedUri_relative (self : ContactsService)
    (kind projection : string) (o : option string) :
  GetFeedUri self kind o projection None
  = feed_path kind (py_or o (contact_list self)) projection.
Proof. reflexivity. Qed.

Lemma GetFeedUri_absolute (self : ContactsService)
    (kind projection s : string) (o : option string) :
  s <> "" ->
  GetFeedUri self kind o projection (Some s)
  = s ++ "://" ++ server self
    ++ feed_path kind (py_or o (contact_list self)) projection.
Proof.
  intros Hs. unfold GetFeedUri, feed_path.
  destruct s as [|a s]; [now elim Hs|].
  cbn [nonempty append].
  rewrite append_assoc. reflexivity.
Qed.

(** C1, as stated, fails: an empty scheme that is given yields the
    host-relative path and not ["://<server>/m8/feeds/..."], and an empty
    list identifier that is given is replaced by the configured list. *)
Lemma GetFeedUri_empty_arguments :
  GetFeedUri default_service "contacts" (Some "default") "full" (Some "")
    <> "" ++ "://" ++ server default_service
       ++ "/m8/feeds/" ++ "contacts" ++ "/" ++ "default" ++ "/" ++ "full"
  /\ GetFeedUri default_service "contacts" (Some "") "full" None
    <> "/m8/feeds/" ++ "contacts" ++ "/" ++ "" ++ "/" ++ "full".
Proof. split; vm_compute; discriminate. Qed.

(** C1 (amended): for every kind, projection, non-empty list identifier [l]
    and non-empty scheme [s], [GetFeedUri] returns
    [<s>://<server>/m8/feeds/<kind>/<listId>/<projection>] when the scheme is
    given and the host-relative path [/m8/feeds/<kind>/<listId>/<projection>]
    when the scheme is omitted or empty; [listId] is the argument when it is
    given and non-empty and the client's configured contact list otherwise;
    for kind ['profiles'] the list identifier is first rewritten to
    [domain/<listId>]; and
    [GetFeedUri('contacts', 'default', 'full', None)] is
    ['/m8/feeds/contacts/default/full']. *)
Theorem GetFeedUri_shape (self : ContactsService)
    (kind projection l s : string) :
  l <> "" -> s <> "" ->
  GetFeedUri self kind (Some l) projection (Some s)
    = s ++ "://" ++ server self ++ feed_path kind l projection
  /\ GetFeedUri self kind None projection (Some s)
    = s ++ "://" ++ server self ++ feed_path kind (contact_list self) projection
  /\ GetFeedUri self kind (Some l) projection None
    = feed_path kind l projection
  /\ GetFeedUri self kind None projection None
    = feed_path kind (contact_list self) projection
  /\ (forall o, GetFeedUri self kind o projection (Some "")
                = GetFeedUri self kind o projection None)
  /\ (forall o, GetFeedUri self kind (Some "") projection o
                = GetFeedUri self kind None projection o)
  /\ feed_path "profiles" l projection
    = "/m8/feeds/profiles/domain/" ++ l ++ "/" ++ projection
  /\ (kind <> "profiles" ->
      feed_path kind l projection
      = "/m8/feeds/" ++ kind ++ "/" ++ l ++ "/" ++ projection)
  /\ GetFeedUri self "contacts" (Some "default") "full" None
    = "/m8/feeds/contacts/default/full".
Proof.
  intros Hl Hs.
  repeat split.
  - rewrite (GetFeedUri_absolute self kind projection s (Some l) Hs).
    now rewrite (py_or_given l _ Hl).
  - now rewrite (GetFeedUri_absolute self kind projection s None Hs).
  - rewrite GetFeedUri_relative. now rewrite (py_or_given l _ Hl).
  - intros Hk. unfold feed_path.
    apply String.eqb_neq in Hk. now rewrite Hk.
Qed.

Lemma GetFeedUri_shape_witness :
  GetFeedUri default_service "groups" (Some "x") "full" (Some "http")
    = "http://www.google.com/m8/feeds/groups/x/full"
  /\ GetFeedUri default_service "profiles" None "full" None
    = "/m8/feeds/profiles/domain/default/full".
Proof.
  assert (Hx : "x" <> "") by discriminate.
  assert (Hh : "http" <> "") by discriminate.
  destruct (GetFeedUri_shape default_service "groups" "full" "x" "http" Hx Hh)
    as [H1 _].
  destruct (GetFeedUri_shape default_service "profiles" "full" "x" "http" Hx Hh)
    as [_ [_ [_ [H4 _]]]].
  split; [exact H1 | exact H4].
Defined.

(** ** URI normalisation *)

Lemma _CleanUri_strips (self : ContactsService) (uri : string) :
  startswith uri ("http://" ++ server self) = true ->
  uri = "http://" ++ server self ++ _CleanUri self uri.
Proof.
  intros H. unfold _CleanUri. rewrite H.
  rewrite <- append_assoc. now apply startswith_split.
Qed.

Lemma _CleanUri_keeps (self : ContactsService) (uri : string) :
  startswith uri ("http://" ++ server self) = false ->
  _CleanUri self uri = uri.
Proof.
  intros H. unfold _CleanUri. now rewrite H.
Qed.

Lemma _CleanUri_qualified (self : ContactsService) (path : string) :
  _CleanUri self ("http://" ++ server self ++ path) = path.
Proof.
  unfold _CleanUri. rewrite <- append_assoc.
  rewrite startswith_app. apply slice_from_app.
Qed.

Lemma length_append (a b : string) :
  String.length (a ++ b) = String.length a + String.length b.
Proof.
  induction a as [|x a IH]; simpl; [reflexivity | now rewrite IH].
Qed.

Lemma qualified_differs (pre rest : string) :
  pre <> "" -> pre ++ rest <> rest.
Proof.
  intros Hpre E.
  apply (f_equal String.length) in E. rewrite length_append in E.
  destruct pre as [|x pre]; [now elim Hpre|]. simpl in E. lia.
Qed.

Lemma _CleanUri_changes (self : ContactsService) (uri : string) :
  startswith uri ("http://" ++ server self) = true ->
  _CleanUri self uri <> uri.
Proof.
  intros H E.
  pose proof (_CleanUri_strips self uri H) as S.
  rewrite E in S. rewrite <- append_assoc in S.
  symmetry in S. revert S. apply qualified_differs. discriminate.
Qed.

(** C2, as stated, fails: a URI that names a different host whose name
    begins with the configured server is not returned unmodified. *)
Lemma _CleanUri_longer_host :
  let u := "http://www.google.com.evil.org/m8/feeds/contacts/default/full/1" in
  uri_host u = Some "www.google.com.evil.org"
  /\ "www.google.com.evil.org" <> server default_service
  /\ _CleanUri default_service u <> u.
Proof.
  cbv zeta. repeat split; try reflexivity; vm_compute; discriminate.
Qed.

(** The test of [_CleanUri] reads the text and not the host: a URI whose
    host is [evil.org], with the server's name as user information, is
    stripped as well. *)
Lemma _CleanUri_userinfo :
  _CleanUri default_service "http://www.google.com@evil.org/m8/feeds/x"
  = "@evil.org/m8/feeds/x".
Proof. reflexivity. Qed.

(** C2 (amended): for every URI string, [_CleanUri] returns the URI with
    exactly the prefix [http://<configured-server>] removed (what follows it,
    leading slash included, is kept) when the URI starts with that prefix,
    and returns the URI unchanged otherwise; so a URI is returned unmodified
    if and only if it does not start with that prefix.  In particular a URI
    beginning with [https://] is returned unmodified; a URI beginning with
    [http://] is returned unmodified if and only if what follows [http://]
    does not begin with the configured server string, whichever host the
    URI names. *)
Theorem _CleanUri_spec (self : ContactsService) :
  (forall uri, startswith uri ("http://" ++ server self) = true ->
     uri = "http://" ++ server self ++ _CleanUri self uri)
  /\ (forall uri, startswith uri ("http://" ++ server self) = false ->
     _CleanUri self uri = uri)
  /\ (forall path,
     _CleanUri self ("http://" ++ server self ++ "/" ++ path) = "/" ++ path)
  /\ (forall rest, _CleanUri self ("https://" ++ rest) = "https://" ++ rest)
  /\ (forall uri,
     _CleanUri self uri = uri
     <-> startswith uri ("http://" ++ server self) = false)
  /\ (forall rest,
     _CleanUri self ("http://" ++ rest) = "http://" ++ rest
     <-> startswith rest (server self) = false).
Proof.
  assert (I : forall uri,
             _CleanUri self uri = uri
             <-> startswith uri ("http://" ++ server self) = false).
  { intros uri. split; [|apply _CleanUri_keeps].
    intros E.
    destruct (startswith uri ("http://" ++ server self)) eqn:S;
      [|reflexivity].
    now elim (_CleanUri_changes self uri S). }
  split; [apply _CleanUri_strips|].
  split; [apply _CleanUri_keeps|].
  split; [intros path; apply _CleanUri_qualified|].
  split; [intros rest; apply _CleanUri_keeps; apply startswith_https|].
  split; [exact I|].
  intros rest. rewrite I. now rewrite startswith_http_host.
Qed.

Lemma _CleanUri_spec_witness :
  _CleanUri default_service
    "http://www.google.com/m8/feeds/contacts/default/full/1"
    = "/m8/feeds/contacts/default/full/1"
  /\ _CleanUri default_service "http://example.org/m8/feeds/contacts/default/full/1"
    = "http://example.org/m8/feeds/contacts/default/full/1".
Proof.
  destruct (_CleanUri_spec default_service) as [_ [_ [H3 [_ [_ H6]]]]].
  split.
  - exact (H3 "m8/feeds/contacts/default/full/1").
  - apply (H6 "example.org/m8/feeds/contacts/default/full/1").
    reflexivity.
Defined.

(** ** The transport and the operations built on it *)

Section ServiceProperties.

Context {C : Collaborators}.

Lemma perform_sent {T} (rq : Req) (converter : string -> T) (w : Wire) :
  sent (snd (perform rq converter w)) = (sent w ++ [rq])%list.
Proof.
  unfold perform. now destruct (exchange (conn w) rq).
Qed.

Lemma perform_outcome {T} (rq : Req) (converter : string -> T) (w : Wire) :
  fst (perform rq converter w) = interpret (answer w rq) converter.
Proof.
  unfold perform, answer. now destruct (exchange (conn w) rq).
Qed.

Lemma interpret_failure {T} (resp : Response) (converter : string -> T) :
  ok_status (status resp) = false ->
  interpret resp converter
  = Raises (RequestError (status resp) (reason resp) (body resp)).
Proof.
  intros H. unfold interpret. now rewrite H.
Qed.

Lemma interpret_success {T} (resp : Response) (converter : string -> T) :
  ok_status (status resp) = true ->
  interpret resp converter = Returns (converter (body resp)).
Proof.
  intros H. unfold interpret. now rewrite H.
Qed.

Lemma perform_reports {T} (rq : Req) (converter : string -> T) (w : Wire) :
  exists rq',
    sent (snd (perform rq converter w)) = (sent w ++ [rq'])%list
    /\ (ok_status (status (answer w rq')) = false ->
        fst (perform rq converter w)
        = Raises (RequestError (status (answer w rq')) (reason (answer w rq'))
                               (body (answer w rq')))).
Proof.
  exists rq. split; [apply perform_sent|].
  intros H. rewrite perform_outcome. now apply interpret_failure.
Qed.

(** C3: every get, create, update and delete operation sends one request,
    and when the response to it has a status outside 2xx the operation
    raises the request error that carries the status code, the reason
    phrase and the body of that response, unchanged. *)
Theorem request_error_verbatim (self : ContactsService) (T : Type)
    (m : Net T) :
  crud_operation self T m ->
  forall w : Wire,
  exists rq : Req,
    sent (snd (m w)) = (sent w ++ [rq])%list
    /\ (ok_status (status (answer w rq)) = false ->
        fst (m w)
        = Raises (RequestError (status (answer w rq)) (reason (answer w rq))
                               (body (answer w rq)))).
Proof.
  intros H w. destruct H; apply perform_reports.
Qed.

(** C4: each of [UpdateContact], [DeleteContact], [UpdateGroup],
    [DeleteGroup] and [UpdateProfile] sends exactly one request, a PUT or a
    DELETE, whose URI is [_CleanUri] of the edit URI supplied; when the edit
    URI starts with [http://<server>] the request never carries the raw
    string. *)
Theorem edit_uri_normalised (self : ContactsService) (edit_uri : string)
    (v : Verb) (T : Type) (m : Net T) :
  edit_operation self edit_uri v T m ->
  forall w : Wire,
  exists rq : Req,
    sent (snd (m w)) = (sent w ++ [rq])%list
    /\ verb rq = v
    /\ uri rq = _CleanUri self edit_uri
    /\ (startswith edit_uri ("http://" ++ server self) = true ->
        uri rq <> edit_uri)
    /\ (forall path, edit_uri = "http://" ++ server self ++ path ->
        uri rq = path).
Proof.
  intros H w.
  destruct H;
    (eexists; split; [apply perform_sent|];
     cbn [verb uri]; repeat split;
     [ apply _CleanUri_changes
     | intros path ->; apply _CleanUri_qualified ]).
Qed.

(** C8: with no insert URI, [CreateContact] sends exactly one POST, to
    [/m8/feeds/contacts/<configured-list>/full], and [CreateGroup] exactly
    one POST, to [/m8/feeds/groups/<configured-list>/full]; each returns the
    body of the server's answer run through [ContactEntryFromString],
    respectively [GroupEntryFromString]. *)
Theorem create_posts_to_default_feed (self : ContactsService)
    (new_entry : Atom) (params : Params) (esc : bool) (w : Wire) :
  let contacts :=
    mkRequest POST ("/m8/feeds/contacts/" ++ contact_list self ++ "/full")
              (Some (AtomBody new_entry)) params esc in
  let groups :=
    mkRequest POST ("/m8/feeds/groups/" ++ contact_list self ++ "/full")
              (Some (AtomBody new_entry)) params esc in
  sent (snd (CreateContact self new_entry None params esc w))
    = (sent w ++ [contacts])%list
  /\ fst (CreateContact self new_entry None params esc w)
    = (let r := answer w contacts in
       if ok_status (status r)
       then Returns (ContactEntryFromString (body r))
       else Raises (RequestError (status r) (reason r) (body r)))
  /\ sent (snd (CreateGroup self new_entry None params esc w))
    = (sent w ++ [groups])%list
  /\ fst (CreateGroup self new_entry None params esc w)
    = (let r := answer w groups in
       if ok_status (status r)
       then Returns (GroupEntryFromString (body r))
       else Raises (RequestError (status r) (reason r) (body r))).
Proof.
  cbv zeta. repeat split.
  - apply (perform_sent _ ContactEntryFromString).
  - apply (perform_outcome _ ContactEntryFromString).
  - apply (perform_sent _ GroupEntryFromString).
  - apply (perform_outcome _ GroupEntryFromString).
Qed.

(** C9: for every batch feed, URL and converter, [ExecuteBatch] sends
    exactly one POST that carries the feed as it was given to the URL as it
    was given and returns what the converter makes of the answer's body;
    [ExecuteBatchProfiles] does the same on every input; the two differ in
    the default of the converter, [ContactsFeedFromString] for the first and
    [ProfilesFeedFromString] for the second. *)
Theorem batch_is_one_post (T : Type) (self : ContactsService)
    (batch_feed : Atom) (url : string) (converter : string -> T) (w : Wire) :
  let rq := mkRequest POST url (Some (AtomBody batch_feed)) None true in
  sent (snd (ExecuteBatch self batch_feed url converter w)) = (sent w ++ [rq])%list
  /\ fst (ExecuteBatch self batch_feed url converter w)
    = (let r := answer w rq in
       if ok_status (status r)
       then Returns (converter (body r))
       else Raises (RequestError (status r) (reason r) (body r)))
  /\ ExecuteBatchProfiles self batch_feed url converter w
    = ExecuteBatch self batch_feed url converter w
  /\ ExecuteBatch self batch_feed url ExecuteBatch_converter w
    = Post (AtomBody batch_feed) url None true ContactsFeedFromString w
  /\ ExecuteBatchProfiles self batch_feed url ExecuteBatchProfiles_converter w
    = Post (AtomBody batch_feed) url None true ProfilesFeedFromString w.
Proof.
  cbv zeta. repeat split.
  - apply perform_sent.
  - apply perform_outcome.
Qed.

(** ** Photos *)

Lemma DeletePhoto_empty_url (self : ContactsService) (t : PhotoTarget)
    (w : Wire) :
  photo_edit_target t "" -> DeletePhoto self t w = (Returns tt, w).
Proof.
  intros H. inversion H as [u Ht Hu | pl l f Ht Hu]; subst.
  - reflexivity.
  - unfold DeletePhoto, bind, ret. cbn. now rewrite Hu.
Qed.

(** C5: on a contact entry that has no photo-edit link, [DeletePhoto] does
    not return: the [href] of the [None] that [GetPhotoEditLink] gives
    raises [AttributeError], before any request. *)
Theorem DeletePhoto_without_edit_link (self : ContactsService)
    (pl : option Link) (f : string) (w : Wire) :
  DeletePhoto self (EntryTarget (mkContactEntry pl None f)) w
  = (Raises AttributeError, w).
Proof. reflexivity. Qed.

(** C6: for every contact entry lacking a photo-edit link, [ChangePhoto]
    raises [AttributeError], an error that is not a request error, and
    leaves the wire as it was: no request is sent. *)
Theorem ChangePhoto_without_edit_link (self : ContactsService)
    (media : Media Stream) (e : ContactEntry) (ct : option string)
    (cl : option Z) (w : Wire) :
  GetPhotoEditLink e = None ->
  ChangePhoto self media (EntryTarget e) ct cl w = (Raises AttributeError, w)
  /\ (forall st rs bd, AttributeError <> RequestError st rs bd).
Proof.
  intros H. split; [|discriminate].
  unfold ChangePhoto, bind, raise. now rewrite H.
Qed.


(** C10: for every photo target URL, given as a string or taken from the
    photo-edit link of a contact entry, [ChangePhoto] sends its PUT to that
    URL as it is, and [DeletePhoto] sends its DELETE to that URL as it is
    (when the URL is not empty, so that it resolves); [_CleanUri] is not
    applied: a URL that starts with [http://<server>] is sent unstripped.
    Whatever the media, [ChangePhoto] sends nothing but PUTs to that URL
    (none when a file name cannot be opened). *)
Theorem photo_url_sent_as_given (self : ContactsService)
    (media : Media Stream) (t : PhotoTarget) (url : string)
    (ct : option string) (cl : option Z) (source : MediaSource Stream)
    (w : Wire) :
  photo_edit_target t url ->
  wraps ct cl media source ->
  sent (snd (ChangePhoto self media t ct cl w))
    = (sent w ++ [mkRequest PUT url (Some (MediaBody source)) None true])%list
  /\ (url <> "" ->
      sent (snd (DeletePhoto self t w))
      = (sent w ++ [mkRequest DELETE url None None true])%list)
  /\ (startswith url ("http://" ++ server self) = true ->
      url <> _CleanUri self url)
  /\ (forall media',
      exists reqs,
        sent (snd (ChangePhoto self media' t ct cl w)) = (sent w ++ reqs)%list
        /\ Forall (fun rq => verb rq = PUT /\ uri rq = url) reqs).
Proof.
  intros Ht Hm.
  split; [|split; [|split]]; cycle 3.
  - intros media'.
    assert (E : ChangePhoto self media' t ct cl w
                = bind (match media' with
                        | IsMediaSource m => ret m
                        | FileLike f => MediaSource_init (Some f) ct cl None
                        | FileName path =>
                            MediaSource_init None ct cl (Some path)
                        end)
                       (fun p => Put (MediaBody p) url None true
                                     GDataFromString) w).
    { now destruct Ht. }
    rewrite E. clear E.
    assert (P : forall p,
               exists reqs,
                 sent (snd (Put (MediaBody p) url None true
                                GDataFromString w))
                 = (sent w ++ reqs)%list
                 /\ Forall (fun rq => verb rq = PUT /\ uri rq = url) reqs).
    { intros p. eexists. split; [apply perform_sent|].
      constructor; [now split | constructor]. }
    assert (N : exists reqs : list Req,
               sent w = (sent w ++ reqs)%list
               /\ Forall (fun rq => verb rq = PUT /\ uri rq = url) reqs).
    { exists []. split; [now rewrite app_nil_r | constructor]. }
    unfold bind, MediaSource_init, ret, raise.
    destruct media' as [m | f | path]; try apply P.
    destruct (open_file path) as [[h size]|]; [apply P | exact N].
  - assert (E : ChangePhoto self media t ct cl w
                = Put (MediaBody source) url None true GDataFromString w).
    { destruct Ht; destruct Hm as [m | s | path h size Hopen];
        unfold ChangePhoto, bind, ret, MediaSource_init; cbn;
        try rewrite Hopen; reflexivity. }
    rewrite E. apply perform_sent.
  - intros Hu.
    assert (E : DeletePhoto self t w
                = bind (Delete url None true) (fun _ => ret tt) w).
    { destruct Ht; unfold DeletePhoto, bind, ret; cbn;
        now rewrite (nonempty_true _ Hu). }
    rewrite E. unfold bind, Delete, perform, interpret, ret.
    destruct (exchange (conn w) (mkRequest DELETE url None None true))
      as [r c]; cbn.
    now destruct (ok_status (status r)).
  - intros H E. symmetry in E. revert E. now apply _CleanUri_changes.
Qed.

End ServiceProperties.

(** ** The statements at concrete inputs *)

Lemma request_error_verbatim_witness :
  exists rq,
    sent (snd (@CreateContact (demo not_found) default_service "<entry/>"
                 None None true (fresh not_found))) = [rq]
    /\ fst (@CreateContact (demo not_found) default_service "<entry/>"
              None None true (fresh not_found))
       = Raises (RequestError 404 "Not Found" "no such entry").
Proof.
  destruct (@request_error_verbatim (demo not_found) default_service _ _
              (@crud_CreateContact (demo not_found) default_service
                 "<entry/>" None None true)
              (fresh not_found)) as [rq [Hs Hf]].
  exists rq. split; [exact Hs | apply Hf; reflexivity].
Defined.

Lemma edit_uri_normalised_witness :
  exists rq,
    sent (snd (@UpdateContact (demo created) default_service
                 "http://www.google.com/m8/feeds/contacts/default/full/1"
                 "<entry/>" None true (fresh created))) = [rq]
    /\ verb rq = PUT
    /\ uri rq = "/m8/feeds/contacts/default/full/1".
Proof.
  destruct (@edit_uri_normalised (demo created) default_service
              "http://www.google.com/m8/feeds/contacts/default/full/1" _ _ _
              (@edit_UpdateContact (demo created) default_service _
                 "<entry/>" None true)
              (fresh created)) as [rq [Hs [Hv [Hu _]]]].
  exists rq. split; [exact Hs | split; [exact Hv | exact Hu]].
Defined.

Lemma ChangePhoto_without_edit_link_witness :
  @ChangePhoto (demo created) default_service (FileName "photo.jpg")
    (EntryTarget (mkContactEntry None None "<entry/>"))
    (Some "image/jpeg") None (fresh created)
  = (Raises AttributeError, fresh created).
Proof.
  apply (@ChangePhoto_without_edit_link (demo created) default_service
           (FileName "photo.jpg") (mkContactEntry None None "<entry/>")
           (Some "image/jpeg") None (fresh created)).
  reflexivity.
Defined.



(** With a bytes body, what [GetPhoto] returns is the repr of the body and
    not the body. *)
Lemma GetPhoto_bytes_body :
  fst (@GetPhoto (demo_bytes photo_found) default_service
         (UrlTarget "/m8/photos/media/default/1")
         (@mkWire (demo_bytes photo_found) O []))
  = Returns (Some "b'JFIF'").
Proof. reflexivity. Qed.

Lemma photo_url_sent_as_given_witness :
  let url := "http://www.google.com/m8/photos/media/default/1" in
  let entry := mkContactEntry None (Some (mkLink "edit-photo" url)) "<entry/>" in
  sent (snd (@ChangePhoto (demo created) default_service
               (FileName "photo.jpg") (EntryTarget entry)
               (Some "image/jpeg") None (fresh created)))
    = [mkRequest PUT url
         (Some (MediaBody (mkMediaSource (Some "JFIF") (Some "image/jpeg")
                                         (Some 4%Z))))
         None true]
  /\ sent (snd (@DeletePhoto (demo created) default_service
                  (EntryTarget entry) (fresh created)))
    = [mkRequest DELETE url None None true]
  /\ url <> _CleanUri default_service url.
Proof.
  cbv zeta.
  destruct (@photo_url_sent_as_given (demo created) default_service
              (FileName "photo.jpg") _ _ (Some "image/jpeg") None _
              (fresh created)
              (edit_target_link None
                 (mkLink "edit-photo"
                    "http://www.google.com/m8/photos/media/default/1")
                 "<entry/>")
              (@wraps_file (demo created) (Some "image/jpeg") None
                 "photo.jpg" "JFIF" 4%Z eq_refl))
    as [Hp [Hd [Hc _]]].
  split; [exact Hp|].
  split; [apply Hd; discriminate | apply Hc; reflexivity].
Defined.

(** * Further properties of the module *)

(** ** More on strings *)

Lemma append_cancel_l (a x y : string) : a ++ x = a ++ y -> x = y.
Proof.
  induction a as [|c a IH]; simpl; intros H; [exact H|].
  injection H as H. now apply IH.
Qed.

Lemma append_cancel_r (x y c : string) : x ++ c = y ++ c -> x = y.
Proof.
  revert y.
  induction x as [|a x IH]; intros [|b y] H; simpl in H.
  - reflexivity.
  - apply (f_equal String.length) in H. simpl in H.
    rewrite length_append in H. lia.
  - apply (f_equal String.length) in H. simpl in H.
    rewrite length_append in H. lia.
  - injection H as Hab H. subst b. f_equal. now apply IH.
Qed.

Lemma contains_app (sub a b : string) : contains sub (a ++ sub ++ b) = true.
Proof.
  induction a as [|c a IH]; cbn [append contains].
  - pose proof (startswith_app sub b) as P. unfold startswith in P.
    destruct (sub ++ b) as [|d r] eqn:E; cbn [contains].
    + exact P.
    + now rewrite P.
  - rewrite IH. apply orb_true_r.
Qed.

Lemma relative_not_qualified (srv r : string) :
  startswith (String "/" r) ("http://" ++ srv) = false.
Proof. reflexivity. Qed.

(** ** Normalisation and feed URIs together *)

(** X1: a host-relative URI (one that begins with a slash) is never touched
    by [_CleanUri], whatever the configured server; so once the result of
    [_CleanUri] is host-relative, cleaning it again changes nothing. *)
Theorem _CleanUri_relative (self : ContactsService) (uri : string) :
  startswith uri "/" = true ->
  _CleanUri self uri = uri
  /\ _CleanUri self (_CleanUri self ("http://" ++ server self ++ uri)) = uri.
Proof.
  intros H.
  assert (K : _CleanUri self uri = uri).
  { apply _CleanUri_keeps.
    destruct uri as [|c r]; [discriminate|].
    unfold startswith in H. cbn [String.prefix] in H.
    destruct (ascii_dec "/" c) as [E|_]; [|discriminate].
    subst c. apply relative_not_qualified. }
  split; [exact K|].
  now rewrite _CleanUri_qualified.
Qed.

Lemma _CleanUri_relative_witness :
  _CleanUri (mkService "contacts.example.org" "liz")
            "/m8/feeds/contacts/liz/full/12"
  = "/m8/feeds/contacts/liz/full/12".
Proof.
  apply (_CleanUri_relative (mkService "contacts.example.org" "liz")
           "/m8/feeds/contacts/liz/full/12").
  reflexivity.
Defined.

(** X2: [_CleanUri] undoes the [http] scheme of [GetFeedUri]: the absolute
    feed URI built with scheme ['http'] normalises to the host-relative feed
    URI of the same kind, list and projection; the host-relative feed URI
    and the one built with scheme ['https'] are left as they are. *)
Theorem feed_uri_normalises (self : ContactsService)
    (kind projection : string) (l : option string) :
  _CleanUri self (GetFeedUri self kind l projection (Some "http"))
    = GetFeedUri self kind l projection None
  /\ _CleanUri self (GetFeedUri self kind l projection None)
    = GetFeedUri self kind l projection None
  /\ _CleanUri self (GetFeedUri self kind l projection (Some "https"))
    = GetFeedUri self kind l projection (Some "https").
Proof.
  assert (Hh : "http" <> "") by discriminate.
  assert (Hs : "https" <> "") by discriminate.
  split; [|split].
  - rewrite (GetFeedUri_absolute self kind projection "http" l Hh).
    rewrite GetFeedUri_relative.
    apply (_CleanUri_qualified self).
  - rewrite GetFeedUri_relative. apply _CleanUri_keeps. reflexivity.
  - rewrite (GetFeedUri_absolute self kind projection "https" l Hs).
    apply _CleanUri_keeps. reflexivity.
Qed.

(** X3: for a fixed kind, projection and scheme, two different non-empty
    list identifiers never give the same feed URI. *)
Theorem GetFeedUri_separates_lists (self : ContactsService)
    (kind projection l1 l2 : string) (scheme : option string) :
  l1 <> "" -> l2 <> "" -> l1 <> l2 ->
  GetFeedUri self kind (Some l1) projection scheme
  <> GetFeedUri self kind (Some l2) projection scheme.
Proof.
  intros H1 H2 Hne E. apply Hne.
  unfold GetFeedUri in E.
  rewrite (py_or_given l1 _ H1), (py_or_given l2 _ H2) in E.
  apply append_cancel_l in E.
  apply (append_cancel_l "/m8/feeds/") in E.
  apply append_cancel_l in E.
  apply (append_cancel_l "/") in E.
  apply append_cancel_r in E.
  destruct (String.eqb kind "profiles"); [|exact E].
  now apply (append_cancel_l "domain/") in E.
Qed.

Lemma GetFeedUri_separates_lists_witness :
  GetFeedUri default_service "profiles" (Some "a.example") "full" (Some "https")
  <> GetFeedUri default_service "profiles" (Some "b.example") "full"
       (Some "https").
Proof.
  apply (GetFeedUri_separates_lists default_service "profiles" "full"
           "a.example" "b.example" (Some "https")); discriminate.
Defined.

Lemma profiles_feed_uri_parts (self : ContactsService) (projection : string)
    (l scheme : option string) :
  exists a b,
    GetFeedUri self "profiles" l projection scheme
    = a ++ "/profiles/domain/" ++ b.
Proof.
  unfold GetFeedUri.
  change (String.eqb "profiles" "profiles") with true. cbv iota.
  match goal with
  | |- exists a b, ?p ++ _ = _ =>
      exists (p ++ "/m8/feeds"),
             (py_or l (contact_list self) ++ "/" ++ projection)
  end.
  rewrite !append_assoc. reflexivity.
Qed.

(** X4: every feed URI [GetFeedUri] builds for kind ['profiles'] contains
    the segment [/profiles/domain/]; so none of them is the module's
    [DEFAULT_PROFILES_BATCH_URL], and none is the default feed of
    [ProfilesQuery], neither of which has that segment. *)
Theorem profiles_feed_uri_has_domain (self : ContactsService)
    (projection : string) (l scheme : option string) :
  contains "/profiles/domain/"
           (GetFeedUri self "profiles" l projection scheme) = true
  /\ GetFeedUri self "profiles" l projection scheme
     <> DEFAULT_PROFILES_BATCH_URL
  /\ GetFeedUri self "profiles" l projection scheme
     <> ProfilesQuery_feed None.
Proof.
  destruct (profiles_feed_uri_parts self projection l scheme)
    as [a [b E]].
  assert (K : contains "/profiles/domain/"
                (GetFeedUri self "profiles" l projection scheme) = true).
  { rewrite E. apply contains_app. }
  split; [exact K|].
  split; intros F; rewrite F in K; vm_compute in K; discriminate.
Qed.

(** X5: the default feed of [ContactsQuery] is the default contacts feed of
    a service exactly when the service's contact list is ['default'], and
    likewise for [GroupsQuery] and the groups feed: the query builders do
    not follow the contact list a service is configured with. *)
Theorem query_default_feed_matches (self : ContactsService) :
  (GetFeedUri self "contacts" None "full" None = ContactsQuery_feed None
     <-> contact_list self = "default")
  /\ (GetFeedUri self "groups" None "full" None = GroupsQuery_feed None
     <-> contact_list self = "default").
Proof.
  split; split; intros H.
  - apply (append_cancel_l "/m8/feeds/contacts/") in H.
    now apply (append_cancel_r _ "default" "/full") in H.
  - unfold GetFeedUri. cbn. now rewrite H.
  - apply (append_cancel_l "/m8/feeds/groups/") in H.
    now apply (append_cancel_r _ "default" "/full") in H.
  - unfold GetFeedUri. cbn. now rewrite H.
Qed.

(** ** Every operation on the wire *)

Lemma py_or_default (o : option string) (d : string) :
  truthy o = false -> py_or o d = d.
Proof.
  destruct o as [s|]; simpl; [|reflexivity].
  intros H. now rewrite H.
Qed.

Section OperationProperties.

Context {C : Collaborators}.

Lemma perform_run {T} (rq : Req) (converter : string -> T) (w : Wire) :
  perform rq converter w
  = (interpret (answer w rq) converter,
     mkWire (snd (exchange (conn w) rq)) (sent w ++ [rq])).
Proof.
  unfold perform, answer. now destruct (exchange (conn w) rq).
Qed.

Lemma bind_perform_ret {A B} (rq : Req) (converter : string -> A)
    (f : A -> B) (w : Wire) :
  bind (perform rq converter) (fun a => ret (f a)) w
  = perform rq (fun s => f (converter s)) w.
Proof.
  unfold bind, perform, interpret, ret.
  destruct (exchange (conn w) rq) as [r c].
  now destruct (ok_status (status r)).
Qed.

(** On any wire an operation either ends locally, with the wire untouched
    and no request error, or is one round trip. *)
Lemma operation_shape (self : ContactsService) (T : Type) (m : Net T) :
  operation self T m ->
  forall w : Wire,
    (exists o : Outcome T,
        m w = (o, w) /\ forall st rs bd, o <> Raises (RequestError st rs bd))
    \/ (exists (rq : Req) (converter : string -> T),
        m w = (interpret (answer w rq) converter,
               mkWire (snd (exchange (conn w) rq)) (sent w ++ [rq]))).
Proof.
  intros H w.
  destruct H as [T m H | media target ct cl | target | target
                 | T feed url conv | T feed url conv].
  - right. destruct H; eexists _, _; apply perform_run.
  - destruct target as [[pl [l|] f] | u];
      try (left; eexists; split; [reflexivity | discriminate]);
      (destruct media as [ms | s | path];
       [ right; eexists _, _; apply perform_run
       | right; eexists _, _; apply perform_run
       | unfold ChangePhoto, bind, ret, raise, MediaSource_init; cbn;
         destruct (open_file path) as [[h size]|];
         [ right; eexists _, _; apply perform_run
         | left; eexists; split; [reflexivity | discriminate] ] ]).
  - assert (L : forall u,
               (exists o : Outcome (option string),
                   (if nonempty u
                    then bind (Get u str) (fun b => ret (Some b))
                    else ret None) w = (o, w)
                   /\ forall st rs bd, o <> Raises (RequestError st rs bd))
               \/ (exists rq conv,
                   (if nonempty u
                    then bind (Get u str) (fun b => ret (Some b))
                    else ret None) w
                   = (interpret (answer w rq) conv,
                      mkWire (snd (exchange (conn w) rq)) (sent w ++ [rq])))).
    { intros u. destruct (nonempty u).
      - right. eexists _, _. unfold Get. rewrite bind_perform_ret.
        apply perform_run.
      - left. eexists. split; [reflexivity | discriminate]. }
    destruct target as [[[l|] pel f] | u]; try apply L.
    left. eexists. split; [reflexivity | discriminate].
  - assert (L : forall u,
               (exists o : Outcome unit,
                   (if nonempty u
                    then bind (Delete u None true) (fun _ => ret tt)
                    else ret tt) w = (o, w)
                   /\ forall st rs bd, o <> Raises (RequestError st rs bd))
               \/ (exists rq conv,
                   (if nonempty u
                    then bind (Delete u None true) (fun _ => ret tt)
                    else ret tt) w
                   = (interpret (answer w rq) conv,
                      mkWire (snd (exchange (conn w) rq)) (sent w ++ [rq])))).
    { intros u. destruct (nonempty u).
      - right. eexists _, _. unfold Delete.
        rewrite (bind_perform_ret _ _ (fun _ => tt)).
        apply perform_run.
      - left. eexists. split; [reflexivity | discriminate]. }
    destruct target as [[pl [l|] f] | u]; try apply L.
    left. eexists. split; [reflexivity | discriminate].
  - right. eexists _, _. apply perform_run.
  - right. eexists _, _. apply perform_run.
Qed.

(** X6: every method of the service sends at most one request; it only
    appends to the record of what was sent; and when it sends nothing the
    connection is exactly as it was. *)
Theorem at_most_one_request (self : ContactsService) (T : Type) (m : Net T) :
  operation self T m ->
  forall w : Wire,
  exists reqs : list Req,
    sent (snd (m w)) = (sent w ++ reqs)%list
    /\ (length reqs <= 1)%nat
    /\ (reqs = [] -> snd (m w) = w).
Proof.
  intros H w.
  destruct (operation_shape self T m H w)
    as [[o [E _]] | [rq [conv E]]]; rewrite E; cbn.
  - exists []. rewrite app_nil_r. repeat split. apply le_0_n.
  - exists [rq]. repeat split; [apply le_n | discriminate].
Qed.

(** X7: a method of the service raises a request error exactly when it has
    sent a request and the answer to it has a status outside 2xx, and the
    error then carries the status, reason and body of that answer; this
    holds for the photo and batch methods as for the others. *)
Theorem request_error_iff_bad_answer (self : ContactsService) (T : Type)
    (m : Net T) :
  operation self T m ->
  forall (w : Wire) (st : Z) (rs bd : string),
    fst (m w) = Raises (RequestError st rs bd)
    <-> exists rq : Req,
          sent (snd (m w)) = (sent w ++ [rq])%list
          /\ ok_status (status (answer w rq)) = false
          /\ answer w rq = mkResponse st rs bd.
Proof.
  intros H w st rs bd.
  destruct (operation_shape self T m H w)
    as [[o [E N]] | [rq [conv E]]]; rewrite E; cbn [fst snd sent].
  - split.
    + intros F. now elim (N st rs bd).
    + intros [rq [F _]].
      apply (f_equal (@length _)) in F.
      rewrite length_app in F. simpl in F. lia.
  - split.
    + intros F. exists rq. split; [reflexivity|].
      unfold interpret in F.
      destruct (ok_status (status (answer w rq))); [discriminate|].
      split; [reflexivity|].
      injection F as <- <- <-. now destruct (answer w rq).
    + intros [rq' [F [K A]]].
      apply app_inv_head in F. injection F as <-.
      rewrite (interpret_failure _ _ K). now rewrite A.
Qed.

(** X8: [GetPhoto] returns [None] only when it has fetched nothing: the
    wire is then as it was; and when it returns a value, that is [str] of the
    body of the 2xx answer to the one GET it has sent. *)
Theorem GetPhoto_None_is_local (self : ContactsService) (t : PhotoTarget)
    (w : Wire) :
  (fst (GetPhoto self t w) = Returns None -> snd (GetPhoto self t w) = w)
  /\ (forall b, fst (GetPhoto self t w) = Returns (Some b) ->
      exists rq : Req,
        sent (snd (GetPhoto self t w)) = (sent w ++ [rq])%list
        /\ verb rq = GET
        /\ ok_status (status (answer w rq)) = true
        /\ b = str (body (answer w rq))).
Proof.
  assert (L : forall u,
             GetPhoto self (UrlTarget u) w
             = if nonempty u
               then (interpret (answer w (mkRequest GET u None None true))
                               (fun s => Some (str s)),
                     mkWire (snd (exchange (conn w)
                                    (mkRequest GET u None None true)))
                            (sent w ++ [mkRequest GET u None None true]))
               else (Returns None, w)).
  { intros u. unfold GetPhoto. destruct (nonempty u); [|reflexivity].
    unfold Get. rewrite bind_perform_ret. apply perform_run. }
  assert (K : forall u,
             (fst (GetPhoto self (UrlTarget u) w) = Returns None ->
              snd (GetPhoto self (UrlTarget u) w) = w)
             /\ (forall b,
                 fst (GetPhoto self (UrlTarget u) w) = Returns (Some b) ->
                 exists rq : Req,
                   sent (snd (GetPhoto self (UrlTarget u) w))
                   = (sent w ++ [rq])%list
                   /\ verb rq = GET
                   /\ ok_status (status (answer w rq)) = true
                   /\ b = str (body (answer w rq)))).
  { intros u. rewrite (L u).
    destruct (nonempty u); cbn [fst snd sent].
    - unfold interpret.
      destruct (ok_status (status (answer w (mkRequest GET u None None true))))
        eqn:O.
      + split; [discriminate|].
        intros b F. injection F as <-.
        eexists. repeat split. exact O.
      + split; [discriminate | intros b F; discriminate].
    - split; [reflexivity | intros b F; discriminate]. }
  destruct t as [[[l|] pel f] | u].
  - exact (K (href l)).
  - split; [reflexivity | intros b F; discriminate].
  - exact (K u).
Qed.

(** X9: with no URI, or with the empty string as URI, [GetContactsFeed],
    [GetGroupsFeed] and [GetProfilesFeed] send one GET to the default feed
    of their kind for the configured contact list, which for profiles is
    [/m8/feeds/profiles/domain/<list>/full], and return what the feed
    converter of the kind makes of the answer. *)
Theorem list_default_feed (self : ContactsService) (o : option string)
    (w : Wire) :
  truthy o = false ->
  let get u := mkRequest GET u None None true in
  let contacts := get ("/m8/feeds/contacts/" ++ contact_list self ++ "/full") in
  let groups := get ("/m8/feeds/groups/" ++ contact_list self ++ "/full") in
  let profiles :=
    get ("/m8/feeds/profiles/domain/" ++ contact_list self ++ "/full") in
  (sent (snd (GetContactsFeed self o w)) = (sent w ++ [contacts])%list
   /\ fst (GetContactsFeed self o w)
      = interpret (answer w contacts) ContactsFeedFromString)
  /\ (sent (snd (GetGroupsFeed self o w)) = (sent w ++ [groups])%list
   /\ fst (GetGroupsFeed self o w)
      = interpret (answer w groups) GroupsFeedFromString)
  /\ (sent (snd (GetProfilesFeed self o w)) = (sent w ++ [profiles])%list
   /\ fst (GetProfilesFeed self o w)
      = interpret (answer w profiles) ProfilesFeedFromString).
Proof.
  intros H. cbv zeta.
  unfold GetContactsFeed, GetGroupsFeed, GetProfilesFeed, Get.
  rewrite !(py_or_default o _ H), !perform_run.
  repeat split.
Qed.

(** X10: the methods that read, create or batch at a URI the caller gives
    send their one request to that URI as it is, when it is not empty: they
    do not apply [_CleanUri], so a URI that starts with [http://<server>]
    reaches the transport unstripped, unlike the edit URI of an update or a
    delete. *)
Theorem addressed_uri_sent_as_given (self : ContactsService) (u : string)
    (v : Verb) (T : Type) (m : Net T) :
  u <> "" ->
  addressed_operation self u v T m ->
  forall w : Wire,
  exists rq : Req,
    sent (snd (m w)) = (sent w ++ [rq])%list
    /\ verb rq = v
    /\ uri rq = u
    /\ (startswith u ("http://" ++ server self) = true ->
        uri rq <> _CleanUri self u).
Proof.
  intros Hu H w.
  assert (N : startswith u ("http://" ++ server self) = true ->
              u <> _CleanUri self u).
  { intros S E. symmetry in E. revert E. now apply _CleanUri_changes. }
  destruct H;
    unfold GetContactsFeed, GetGroupsFeed, GetProfilesFeed, CreateContact,
           CreateGroup;
    rewrite ?(py_or_given u _ Hu);
    (eexists; split; [apply perform_sent|]; cbn [verb uri]; repeat split;
     exact N).
Qed.

(** X11: [extra_headers] has no effect on [DeleteContact] and
    [DeleteGroup], which are one and the same operation; and the updates of
    the three kinds, like the creations at a given URI, leave the same wire
    behind: the kind shows only in the converter. *)
Theorem kinds_share_the_wire (self : ContactsService) (edit_uri : string)
    (entry : Atom) (params h h' : Params) (esc : bool) (w : Wire) :
  DeleteContact self edit_uri h params esc w
    = DeleteContact self edit_uri h' params esc w
  /\ DeleteGroup self edit_uri h params esc w
    = DeleteContact self edit_uri h' params esc w
  /\ snd (UpdateGroup self edit_uri entry params esc w)
    = snd (UpdateContact self edit_uri entry params esc w)
  /\ snd (UpdateProfile self edit_uri entry params esc w)
    = snd (UpdateContact self edit_uri entry params esc w)
  /\ (forall u,
      u <> "" ->
      snd (CreateGroup self entry (Some u) params esc w)
      = snd (CreateContact self entry (Some u) params esc w)).
Proof.
  split; [reflexivity|]. split; [reflexivity|].
  unfold UpdateGroup, UpdateProfile, UpdateContact, CreateGroup,
         CreateContact, Put, Post.
  split; [now rewrite !perform_run|].
  split; [now rewrite !perform_run|].
  intros u Hu. rewrite !(py_or_given u _ Hu). now rewrite !perform_run.
Qed.

End OperationProperties.

(** ** The group of a contacts query *)

Lemma dict_get_set_same (k v : string) (d : Dict) :
  dict_get k (dict_set k v d) = Some v.
Proof.
  induction d as [|[k' v'] d IH]; simpl.
  - now rewrite String.eqb_refl.
  - destruct (String.eqb k' k) eqn:E; simpl.
    + now rewrite String.eqb_refl.
    + now rewrite E.
Qed.

Lemma dict_get_set_other (k k0 v : string) (d : Dict) :
  k0 <> k -> dict_get k0 (dict_set k v d) = dict_get k0 d.
Proof.
  intros N.
  induction d as [|[k' v'] d IH]; simpl.
  - destruct (String.eqb_spec k k0) as [E|_]; [now elim N | reflexivity].
  - destruct (String.eqb_spec k' k) as [E|E]; simpl.
    + subst k'.
      destruct (String.eqb_spec k k0) as [F|_]; [now elim N | reflexivity].
    + destruct (String.eqb k' k0); [reflexivity | exact IH].
Qed.

Lemma dict_set_length (k v : string) (d : Dict) :
  dict_mem k d = true -> length (dict_set k v d) = length d.
Proof.
  unfold dict_mem.
  induction d as [|[k' v'] d IH]; simpl; [discriminate|].
  destruct (String.eqb k' k); simpl; [reflexivity|].
  intros H. now rewrite IH.
Qed.

(** X12: the group of a query reads back what [_SetGroup] stored, the last
    value when it is set twice, and a second [_SetGroup] adds no item; a
    query with no ['group'] item has group [None]; and [_SetGroup] changes
    no other item of the query and none of its attributes. *)
Theorem group_reads_back (q : Query) (g g' : string) :
  _GetGroup (_SetGroup q g) = Some g
  /\ _GetGroup (_SetGroup (_SetGroup q g') g) = Some g
  /\ length (items (_SetGroup (_SetGroup q g') g))
     = length (items (_SetGroup q g'))
  /\ (dict_get "group" (items q) = None -> _GetGroup q = None)
  /\ (forall k, k <> "group" ->
      dict_get k (items (_SetGroup q g)) = dict_get k (items q))
  /\ feed (_SetGroup q g) = feed q
  /\ text_query (_SetGroup q g) = text_query q
  /\ categories (_SetGroup q g) = categories q.
Proof.
  assert (S : forall q0 v, _GetGroup (_SetGroup q0 v) = Some v).
  { intros q0 v. unfold _GetGroup, _SetGroup, dict_mem. cbn [items].
    now rewrite dict_get_set_same. }
  split; [apply S|]. split; [apply S|].
  split.
  { unfold _SetGroup. cbn [items]. apply dict_set_length.
    unfold dict_mem. now rewrite dict_get_set_same. }
  split.
  { intros H. unfold _GetGroup, dict_mem. now rewrite H. }
  split; [|repeat split].
  intros k N. unfold _SetGroup. cbn [items]. now apply dict_get_set_other.
Qed.


(** ** The further statements at concrete inputs *)

Lemma at_most_one_request_witness :
  exists reqs,
    sent (snd (@DeletePhoto (demo created) default_service
                 (UrlTarget "/m8/photos/media/default/1") (fresh created)))
    = reqs
    /\ (length reqs <= 1)%nat.
Proof.
  destruct (@at_most_one_request (demo created) default_service _ _
              (@op_DeletePhoto (demo created) default_service
                 (UrlTarget "/m8/photos/media/default/1"))
              (fresh created)) as [reqs [Hs [Hl _]]].
  exists reqs. split; [exact Hs | exact Hl].
Defined.

Lemma request_error_iff_bad_answer_witness :
  fst (@GetPhoto (demo not_found) default_service
         (UrlTarget "/m8/photos/media/default/1") (fresh not_found))
  = Raises (RequestError 404 "Not Found" "no such entry").
Proof.
  apply (@request_error_iff_bad_answer (demo not_found) default_service _ _
           (@op_GetPhoto (demo not_found) default_service
              (UrlTarget "/m8/photos/media/default/1"))
           (fresh not_found) 404%Z "Not Found" "no such entry").
  exists (mkRequest GET "/m8/photos/media/default/1" None None true).
  repeat split.
Defined.

Lemma list_default_feed_witness :
  sent (snd (@GetProfilesFeed (demo created) (mkService "www.google.com" "liz")
               (Some "") (fresh created)))
  = [mkRequest GET "/m8/feeds/profiles/domain/liz/full" None None true].
Proof.
  destruct (@list_default_feed (demo created)
              (mkService "www.google.com" "liz") (Some "") (fresh created)
              eq_refl) as [_ [_ [H _]]].
  exact H.
Defined.

Lemma addressed_uri_sent_as_given_witness :
  exists rq,
    sent (snd (@ExecuteBatch (demo created) string default_service "<feed/>"
                 DEFAULT_BATCH_URL (fun s => s) (fresh created))) = [rq]
    /\ uri rq = DEFAULT_BATCH_URL
    /\ uri rq <> _CleanUri default_service DEFAULT_BATCH_URL.
Proof.
  assert (Hu : DEFAULT_BATCH_URL <> "") by discriminate.
  destruct (@addressed_uri_sent_as_given (demo created) default_service
              DEFAULT_BATCH_URL _ _ _ Hu
              (@at_ExecuteBatch (demo created) default_service
                 DEFAULT_BATCH_URL string "<feed/>" (fun s => s))
              (fresh created)) as [rq [Hs [_ [Hr Hn]]]].
  exists rq. split; [exact Hs | split; [exact Hr | apply Hn; reflexivity]].
Defined.

